(** * Unit_testing.ipynb: the angle-distance function and its test suite

    The notebook develops [angle_distance] in four steps, each a new
    definition of the same Python name, driven by the [TestAngle] suite.
    Python numbers are duck typed: the function only asks its operands for
    [-], [abs], [<] (through [min]) and [%].  That interface is the class
    [PyNum] below; the function bodies are written once against it and
    instantiated at

    - [Z], Python's [int] (the type every test of the suite passes),
    - [Q], exact rationals as [fractions.Fraction] computes with them,
    - [float], IEEE binary64 as Python's [float] computes with it, and
    - [R], exact real arithmetic: what the bodies denote when no operation
      rounds.

    The first three run.  The lemmas [angle_distance_IZR] and
    [angle_distance_Q2R] show that the integer and the rational instance
    compute exactly what the real one denotes; the float instance rounds,
    and the section on binary64 shows where that is visible.

    Python's [%] raises [ZeroDivisionError] on a zero divisor, so it lives
    in a small error monad and so do the functions that call it. *)

From Stdlib Require Import ZArith QArith Qround Qabs Reals Qreals Lra Lia Bool List.
From Stdlib Require Import PrimFloat SpecFloat FloatOps.

(* ------------------------------------------------------------------ *)
(** ** Exceptions as results *)

Inductive exn : Type :=
| ZeroDivisionError.

Inductive result (A : Type) : Type :=
| Ok (x : A)
| Raise (e : exn).

Arguments Ok {A} x.
Arguments Raise {A} e.

Definition bind {A B : Type} (m : result A) (k : A -> result B) : result B :=
  match m with
  | Ok x => k x
  | Raise e => Raise e
  end.

Definition fmap {A B : Type} (f : A -> B) (m : result A) : result B :=
  bind m (fun x => Ok (f x)).

Declare Scope py_scope.
Delimit Scope py_scope with py.

Notation "x <- m ;; k" := (bind m (fun x => k))
  (at level 61, m at next level, right associativity) : py_scope.

(* ------------------------------------------------------------------ *)
(** ** The numeric interface the function relies on *)

Class PyNum (T : Type) : Type := {
  (** an integer literal of the source, coerced to the operand's type *)
  lit : Z -> T;
  (** [x - y] *)
  py_sub : T -> T -> T;
  (** [abs(x)] *)
  py_abs : T -> T;
  (** [x < y] *)
  py_lt : T -> T -> bool;
  (** [x % y]: floored modulo, [ZeroDivisionError] when [y] is zero *)
  py_mod : T -> T -> result T
}.

(** [min(x, y)] of two arguments: the first one unless the second is
    strictly smaller. *)
Definition py_min {T : Type} `{PyNum T} (x y : T) : T :=
  if py_lt y x then y else x.

Notation "x - y" := (py_sub x y) : py_scope.
Notation "x 'mod' y" := (py_mod x y) : py_scope.

(** *** Python [int] *)

Definition Zfloormod (a b : Z) : result Z :=
  if Z.eqb b 0 then Raise ZeroDivisionError else Ok (Z.modulo a b).

#[export] Instance PyInt : PyNum Z := {|
  lit := fun z => z;
  py_sub := Z.sub;
  py_abs := Z.abs;
  py_lt := Z.ltb;
  py_mod := Zfloormod
|}.

(** *** Exact rationals *)

Definition Qltb (x y : Q) : bool :=
  negb (Qle_bool y x).

(** [x % y] on fractions has the value [x - y * floor(x / y)]. *)
Definition Qfloormod (a b : Q) : result Q :=
  if Qeq_bool b 0 then Raise ZeroDivisionError
  else Ok (a - b * inject_Z (Qfloor (a / b)))%Q.

#[export] Instance PyFraction : PyNum Q := {|
  lit := inject_Z;
  py_sub := Qminus;
  py_abs := Qabs;
  py_lt := Qltb;
  py_mod := Qfloormod
|}.

(** *** Python [float]: IEEE binary64

    [-], [abs] and [<] are the hardware operations.  [%] is CPython's
    [float_rem]: C's [fmod], which is exact, followed by a fix-up that
    gives the result the sign of the divisor; the fix-up is a floating
    addition and rounds. *)

(** C's [fmod(x, y)]: the remainder of [x / y] truncated toward zero,
    computed without rounding; it has the sign of [x]. *)
Definition fmod (x y : float) : float :=
  match Prim2SF x, Prim2SF y with
  | S754_nan, _ | _, S754_nan => nan
  | S754_infinity _, _ => nan
  | _, S754_zero _ => nan
  | S754_zero _, _ => x
  | S754_finite _ _ _, S754_infinity _ => x
  | S754_finite sx mx ex, S754_finite _ my ey =>
      let e := Z.min ex ey in
      let r := ((Zpos mx * 2 ^ (ex - e)) mod (Zpos my * 2 ^ (ey - e)))%Z in
      SF2Prim (binary_normalize prec emax (cond_Zopp sx r) e sx)
  end.

(** [copysign(0.0, w)]. *)
Definition copysign_zero (w : float) : float :=
  if get_sign w then neg_zero else zero.

(** [float_rem]:
    [if (wx == 0.0) raise ZeroDivisionError;
     mod = fmod(vx, wx);
     if (mod) { if ((wx < 0) != (mod < 0)) mod += wx; }
     else mod = copysign(0.0, wx);]. *)
Definition float_rem (v w : float) : result float :=
  if (w =? 0)%float then Raise ZeroDivisionError
  else
    let m := fmod v w in
    if negb (m =? 0)%float
    then if xorb (w <? 0)%float (m <? 0)%float
         then Ok (m + w)%float
         else Ok m
    else Ok (copysign_zero w).

(** An [int] operand meeting a [float] one is converted, rounding to
    nearest; the literals 180 and 360 convert exactly.  (Python raises
    [OverflowError] for an [int] beyond the float range, where this
    returns an infinity; the bodies convert no such literal.) *)
Definition float_of_int (z : Z) : float :=
  SF2Prim (binary_normalize prec emax z 0 false).

#[export] Instance PyFloat : PyNum float := {|
  lit := float_of_int;
  py_sub := PrimFloat.sub;
  py_abs := PrimFloat.abs;
  py_lt := PrimFloat.ltb;
  py_mod := float_rem
|}.

(** The rational number a finite float stands for, in lowest terms. *)
Definition float_exact (x : float) : option Q :=
  match Prim2SF x with
  | S754_zero _ => Some 0%Q
  | S754_finite s m e =>
      Some (Qred (inject_Z (cond_Zopp s (Zpos m)) * Qpower 2 e))
  | S754_infinity _ | S754_nan => None
  end.

(** *** Exact reals

    No Python type: the carrier in which [-] and [%] are the mathematical
    operations.  It is what [int] and [Fraction] operands compute (see
    [angle_distance_IZR], [angle_distance_Q2R]) and what [float] operands
    approximate. *)

Definition Rltb (x y : R) : bool :=
  if Rlt_dec x y then true else false.

(** The mathematical floored modulo, [x - y * floor(x / y)]: the result
    has the sign of the divisor. *)
Definition Rfloormod (a b : R) : result R :=
  if Req_dec_T b 0 then Raise ZeroDivisionError
  else Ok (a - b * IZR (Zfloor (a / b)))%R.

#[export] Instance PyReal : PyNum R := {|
  lit := IZR;
  py_sub := Rminus;
  py_abs := Rabs;
  py_lt := Rltb;
  py_mod := Rfloormod
|}.

(* ------------------------------------------------------------------ *)
(** ** The four definitions of [angle_distance], in notebook order *)

Section AngleDistance.
Context {T : Type} `{PyNum T}.
Local Open Scope py_scope.

(** First version: [return abs(b - a)]. *)
Definition angle_distance_1 (a b : T) : T :=
  py_abs (b - a).

(** Second version: [return abs(b - a) % 180]. *)
Definition angle_distance_2 (a b : T) : result T :=
  py_abs (b - a) mod lit 180.

(** Third version: [d = abs(b - a); return min(360 - d, d)]. *)
Definition angle_distance_3 (a b : T) : T :=
  let d := py_abs (b - a) in
  py_min (lit 360 - d) d.

(** Final version:
    [d = abs((b % 360) - (a % 360)); return min(360 - d, d)].
    The operands of the subtraction are evaluated left to right. *)
Definition angle_distance (a b : T) : result T :=
  bm <- b mod lit 360 ;;
  am <- a mod lit 360 ;;
  let d := py_abs (bm - am) in
  Ok (py_min (lit 360 - d) d).

End AngleDistance.

(* ------------------------------------------------------------------ *)
(** ** The [TestAngle] suite

    Each test method calls the function under test on integer literals and
    compares with [assertEqual]; a raised exception fails the test. *)

Module TestAngle.
Local Open Scope Z_scope.

Definition assertEqual (r : result Z) (expected : Z) : bool :=
  match r with
  | Ok v => Z.eqb v expected
  | Raise _ => false
  end.

Section Suite.
Variable f : Z -> Z -> result Z.

Definition test_small_angles : bool :=
  let a := 10 in let b := 90 in let expected := 80 in
  assertEqual (f a b) expected.

Definition test_large_angles : bool :=
  let a := 0 in let b := 270 in let expected := 90 in
  assertEqual (f a b) expected.

Definition test_wrapping_angles : bool :=
  let a := 1 in let b := 359 in let expected := 2 in
  assertEqual (f a b) expected.

Definition test_large_input_angles : bool :=
  let a := 720 in let b := 270 in let expected := 90 in
  assertEqual (f a b) expected.

Definition run_all : list bool :=
  test_small_angles :: test_large_angles ::
  test_wrapping_angles :: test_large_input_angles :: nil.
End Suite.

End TestAngle.

(** *** The suite as it grew

    The notebook defines the class [TestAngle] four times, each definition
    keeping the methods of the one before and adding one.  [unittest.main]
    reports success when every method of the class in force passes. *)

Module Suites.
Import TestAngle.

Section Growth.
Variable f : Z -> Z -> result Z.

Definition TestAngle_1 : list bool :=
  test_small_angles f :: nil.

Definition TestAngle_2 : list bool :=
  test_small_angles f :: test_large_angles f :: nil.

Definition TestAngle_3 : list bool :=
  test_small_angles f :: test_large_angles f ::
  test_wrapping_angles f :: nil.

Definition TestAngle_4 : list bool :=
  test_small_angles f :: test_large_angles f ::
  test_wrapping_angles f :: test_large_input_angles f :: nil.
End Growth.

Definition passes (suite : list bool) : bool :=
  forallb (fun ok => ok) suite.

End Suites.

(* ------------------------------------------------------------------ *)
(** ** The specification's reference definition

    These two relations follow the words of the specification, not the
    code: "reduce each input modulo 360 into [0, 360)", then "the absolute
    difference [d] of the normalized values; the result is
    [min(360 - d, d)]". *)

Module Reference.
Local Open Scope R_scope.

(** [r] is [a] reduced modulo 360 into [0, 360). *)
Definition normalized (a r : R) : Prop :=
  0 <= r < 360 /\ exists k : Z, a = r + 360 * IZR k.

Definition angle_distance_ref (a b r : R) : Prop :=
  exists na nb : R,
    normalized a na /\ normalized b nb /\
    r = Rmin (360 - Rabs (na - nb)) (Rabs (na - nb)).

End Reference.

(* ------------------------------------------------------------------ *)
(** ** Closed forms on the reals

    What the two steps of the final version compute at the real instance;
    [angle_distance_real] below proves that the code is their composition. *)

(** The value of [a % 360]. *)
Definition norm360 (a : R) : R :=
  (a - 360 * IZR (Zfloor (a / 360)))%R.

(** The wrap-around step, [min(360 - d, d)]. *)
Definition wrap (d : R) : R :=
  Rmin (360 - d) d.

(* ------------------------------------------------------------------ *)
(** ** Reasoning tools for the real instance *)

(** Unfold the interface's operations at an instance, and nothing else. *)
Ltac py_ops :=
  cbn [lit py_sub py_abs py_lt py_mod PyInt PyFraction PyFloat PyReal
       bind fmap].

Section RealFacts.
Local Open Scope R_scope.

Lemma Rltb_true (x y : R) : x < y -> Rltb x y = true.
Proof. unfold Rltb; destruct (Rlt_dec x y); [reflexivity | contradiction]. Qed.

Lemma Rltb_false (x y : R) : y <= x -> Rltb x y = false.
Proof. unfold Rltb; destruct (Rlt_dec x y); [lra | reflexivity]. Qed.

(** Python's two-argument [min] on reals is the usual minimum. *)
Lemma py_min_Rmin (x y : R) : py_min x y = Rmin x y.
Proof.
  unfold py_min, Rmin; py_ops.
  destruct (Rle_dec x y) as [Hle | Hgt].
  - now rewrite Rltb_false.
  - rewrite Rltb_true; [reflexivity | lra].
Qed.

Lemma wrap_low (d : R) : d <= 180 -> wrap d = d.
Proof. intros Hd; unfold wrap, Rmin; destruct (Rle_dec (360 - d) d); lra. Qed.

Lemma wrap_high (d : R) : 180 <= d -> wrap d = 360 - d.
Proof. intros Hd; unfold wrap, Rmin; destruct (Rle_dec (360 - d) d); lra. Qed.

Lemma wrap_bounds (d : R) : 0 <= d < 360 -> 0 <= wrap d <= 180.
Proof.
  intros Hd; destruct (Rle_dec d 180).
  - rewrite wrap_low; lra.
  - rewrite wrap_high; lra.
Qed.

(** An integer strictly between -2 and 2, seen through [IZR]. *)
Lemma small_multiple (j : Z) (x : R) :
  -720 < x < 720 -> x = 360 * IZR j -> j = (-1)%Z \/ j = 0%Z \/ j = 1%Z.
Proof.
  intros [Hlo Hhi] ->.
  assert (IZR (-2) < IZR j) as H1 by lra.
  assert (IZR j < IZR 2) as H2 by lra.
  apply lt_IZR in H1, H2; lia.
Qed.

Lemma unit_multiple (j : Z) (x : R) :
  -360 < x < 360 -> x = 360 * IZR j -> j = 0%Z.
Proof.
  intros [Hlo Hhi] ->.
  assert (IZR (-1) < IZR j) as H1 by lra.
  assert (IZR j < IZR 1) as H2 by lra.
  apply lt_IZR in H1, H2; lia.
Qed.

(** Two pairs of canonical angles whose differences are congruent modulo
    360 are at the same wrapped distance. *)
Lemma wrap_congruent (x y x' y' : R) (j : Z) :
  0 <= x < 360 -> 0 <= y < 360 -> 0 <= x' < 360 -> 0 <= y' < 360 ->
  (y - x) - (y' - x') = 360 * IZR j ->
  wrap (Rabs (y - x)) = wrap (Rabs (y' - x')).
Proof.
  intros Hx Hy Hx' Hy' Hj.
  destruct (small_multiple j ((y - x) - (y' - x'))) as [-> | [-> | ->]];
    [lra | exact Hj | | | ]; simpl in Hj;
    unfold wrap, Rmin, Rabs;
    repeat match goal with
           | |- context [Rle_dec ?u ?v] => destruct (Rle_dec u v)
           | |- context [Rcase_abs ?u] => destruct (Rcase_abs u)
           end; lra.
Qed.

(** *** Floored modulo by 360 *)

Lemma Rfloormod_360 (a : R) : Rfloormod a 360 = Ok (norm360 a).
Proof.
  unfold Rfloormod, norm360.
  destruct (Req_dec_T 360 0) as [Habs | _]; [lra | reflexivity].
Qed.

Lemma norm360_range (a : R) : 0 <= norm360 a < 360.
Proof.
  unfold norm360.
  pose proof (Zfloor_bound (a / 360)) as [Hlo Hhi]; lra.
Qed.

Lemma norm360_normalized (a : R) : Reference.normalized a (norm360 a).
Proof.
  split; [apply norm360_range |].
  exists (Zfloor (a / 360)); unfold norm360; lra.
Qed.

Lemma normalized_unique (a r1 r2 : R) :
  Reference.normalized a r1 -> Reference.normalized a r2 -> r1 = r2.
Proof.
  intros [H1 [k1 E1]] [H2 [k2 E2]].
  assert (k2 - k1 = 0)%Z as Hk.
  { apply (unit_multiple _ (r1 - r2)); [lra |].
    rewrite minus_IZR; lra. }
  assert (k2 = k1) as -> by lia; lra.
Qed.

Lemma norm360_unique (a r : R) : Reference.normalized a r -> norm360 a = r.
Proof.
  intros Hr; apply (normalized_unique a _ _ (norm360_normalized a) Hr).
Qed.

Lemma norm360_shift (a : R) (k : Z) : norm360 (a + 360 * IZR k) = norm360 a.
Proof.
  apply norm360_unique.
  destruct (norm360_normalized a) as [Hr [j Hj]].
  split; [exact Hr |].
  exists (j + k)%Z; rewrite plus_IZR; lra.
Qed.

Lemma norm360_canonical (a : R) : 0 <= a < 360 -> norm360 a = a.
Proof.
  intros Ha; apply norm360_unique.
  split; [exact Ha | exists 0%Z; lra].
Qed.

(** The final function on reals, in closed form. *)
Lemma angle_distance_real (a b : R) :
  angle_distance a b = Ok (wrap (Rabs (norm360 b - norm360 a))).
Proof.
  unfold angle_distance; py_ops.
  rewrite !Rfloormod_360; py_ops.
  now rewrite py_min_Rmin.
Qed.

Lemma angle_distance_3_real (a b : R) :
  angle_distance_3 a b = wrap (Rabs (b - a)).
Proof.
  unfold angle_distance_3; py_ops; now rewrite py_min_Rmin.
Qed.

End RealFacts.

(* ------------------------------------------------------------------ *)
(** ** Python integers inside the reals *)

Section IntFacts.
Local Open Scope R_scope.

Lemma Zfloormod_360 (a : Z) : Zfloormod a 360 = Ok (a mod 360)%Z.
Proof. reflexivity. Qed.

Lemma norm360_IZR (a : Z) : norm360 (IZR a) = IZR (a mod 360).
Proof.
  apply norm360_unique; split.
  - pose proof (Z.mod_pos_bound a 360 eq_refl) as [Hlo Hhi].
    apply IZR_le in Hlo; apply IZR_lt in Hhi; lra.
  - exists (a / 360)%Z.
    rewrite (Z.div_mod a 360) at 1 by discriminate.
    rewrite plus_IZR, mult_IZR; lra.
Qed.

Lemma Rltb_IZR (x y : Z) : Rltb (IZR x) (IZR y) = Z.ltb x y.
Proof.
  destruct (Z.ltb_spec x y) as [Hlt | Hge].
  - apply Rltb_true, IZR_lt, Hlt.
  - apply Rltb_false, IZR_le, Hge.
Qed.

Lemma py_min_IZR (x y : Z) : py_min (IZR x) (IZR y) = IZR (py_min x y).
Proof.
  unfold py_min; py_ops; rewrite Rltb_IZR; now destruct (Z.ltb y x).
Qed.

(** The integer instance computes what the real instance does on
    integer inputs. *)
Lemma angle_distance_IZR (a b : Z) :
  angle_distance (IZR a) (IZR b) = fmap IZR (angle_distance a b).
Proof.
  unfold angle_distance; py_ops.
  rewrite !Rfloormod_360, !Zfloormod_360; py_ops.
  rewrite !norm360_IZR, <- minus_IZR, <- abs_IZR, <- minus_IZR.
  now rewrite py_min_IZR.
Qed.

Lemma angle_distance_3_IZR (a b : Z) :
  angle_distance_3 (IZR a) (IZR b) = IZR (angle_distance_3 a b).
Proof.
  unfold angle_distance_3; py_ops.
  rewrite <- minus_IZR, <- abs_IZR, <- minus_IZR.
  now rewrite py_min_IZR.
Qed.

(** The integer function never raises and stays in [0, 180]. *)
Lemma angle_distance_int_bounds (a b : Z) :
  exists r : Z, angle_distance a b = Ok r /\ (0 <= r <= 180)%Z.
Proof.
  unfold angle_distance; py_ops; rewrite !Zfloormod_360; py_ops.
  eexists; split; [reflexivity |].
  unfold py_min; py_ops.
  pose proof (Z.mod_pos_bound a 360 eq_refl).
  pose proof (Z.mod_pos_bound b 360 eq_refl).
  destruct (Z.ltb_spec (Z.abs (b mod 360 - a mod 360))
                       (360 - Z.abs (b mod 360 - a mod 360))); lia.
Qed.

(** Floored, not truncated: a negative operand gives a non-negative
    remainder, where the truncating remainder [Z.rem] keeps the sign of
    the dividend. *)
Lemma floormod_negative_int :
  py_mod (-1)%Z (lit 360) = Ok 359%Z /\ Z.rem (-1) 360 = (-1)%Z.
Proof. split; reflexivity. Qed.

Lemma floormod_negative_real :
  py_mod (-1) (lit 360) = Ok 359.
Proof.
  py_ops; rewrite Rfloormod_360; f_equal.
  apply norm360_unique; split; [lra | exists (-1)%Z; lra].
Qed.

(** Outside the canonical range the third version is not the final one:
    on the input of [test_large_input_angles] it returns -90. *)
Lemma angle_distance_3_out_of_range :
  angle_distance_3 720 270 = -90 /\
  angle_distance 720 270 <> Ok (angle_distance_3 720 270).
Proof.
  rewrite angle_distance_IZR, angle_distance_3_IZR.
  split; [reflexivity |].
  cbv [fmap bind angle_distance]; py_ops.
  intros Heq; injection Heq as Heq.
  apply eq_IZR in Heq; discriminate Heq.
Qed.

End IntFacts.

(* ------------------------------------------------------------------ *)
(** ** Rationals inside the reals *)

Section RationalFacts.
Local Open Scope R_scope.

Lemma Q2R_inject_Z (z : Z) : Q2R (inject_Z z) = IZR z.
Proof. unfold Q2R; simpl; lra. Qed.

Lemma Zfloor_Q2R (x : Q) : Zfloor (Q2R x) = Qfloor x.
Proof.
  apply Zfloor_eq; split.
  - rewrite <- Q2R_inject_Z; apply Qle_Rle, Qfloor_le.
  - rewrite <- plus_IZR, <- Q2R_inject_Z; apply Qlt_Rlt, Qlt_floor.
Qed.

Lemma Q2R_abs (x : Q) : Q2R (Qabs x) = Rabs (Q2R x).
Proof.
  apply Qabs_case; intros Hx; apply Qle_Rle in Hx;
    replace (Q2R 0) with 0 in Hx by (unfold Q2R; simpl; lra).
  - now rewrite Rabs_pos_eq.
  - rewrite Q2R_opp, Rabs_left1; [reflexivity | exact Hx].
Qed.

Lemma Rltb_Q2R (x y : Q) : Rltb (Q2R x) (Q2R y) = Qltb x y.
Proof.
  unfold Qltb.
  destruct (Qle_bool y x) eqn:Hle; simpl.
  - apply Rltb_false, Qle_Rle, Qle_bool_iff, Hle.
  - apply Rltb_true, Qlt_Rlt, Qnot_le_lt.
    intros Hyx; apply Qle_bool_iff in Hyx; congruence.
Qed.

Lemma py_min_Q2R (x y : Q) : py_min (Q2R x) (Q2R y) = Q2R (py_min x y).
Proof.
  unfold py_min; py_ops; rewrite Rltb_Q2R; now destruct (Qltb y x).
Qed.

Lemma Qfloormod_360 (a : Q) :
  Qfloormod a (inject_Z 360) =
  Ok (a - inject_Z 360 * inject_Z (Qfloor (a / inject_Z 360)))%Q.
Proof. reflexivity. Qed.

Lemma norm360_Q2R (a : Q) :
  norm360 (Q2R a) =
  Q2R (a - inject_Z 360 * inject_Z (Qfloor (a / inject_Z 360)))%Q.
Proof.
  unfold norm360.
  rewrite Q2R_minus, Q2R_mult, !Q2R_inject_Z, <- Zfloor_Q2R.
  rewrite Q2R_div by discriminate.
  now rewrite Q2R_inject_Z.
Qed.

(** The rational instance computes what the real instance does on
    rational inputs. *)
Lemma angle_distance_Q2R (a b : Q) :
  angle_distance (Q2R a) (Q2R b) = fmap Q2R (angle_distance a b).
Proof.
  unfold angle_distance; py_ops.
  rewrite !Rfloormod_360, !Qfloormod_360; py_ops.
  rewrite !norm360_Q2R, <- Q2R_minus, <- Q2R_abs.
  rewrite <- (Q2R_inject_Z 360), <- Q2R_minus.
  now rewrite py_min_Q2R.
Qed.

(** Half-degree inputs across the branch cut, and a negative one. *)
Lemma angle_distance_fraction_examples :
  fmap Qred (angle_distance (1 # 2) (719 # 2))%Q = Ok 1%Q /\
  fmap Qred (angle_distance (- (45 # 2)) (45 # 2))%Q = Ok 45%Q /\
  fmap Qred (angle_distance (- (1 # 3)) (1081 # 3))%Q = Ok (2 # 3)%Q.
Proof. repeat split; reflexivity. Qed.

End RationalFacts.

(** *** How the suite drove the four versions *)

Section Narrative.
Import TestAngle.

Lemma version_1_fails_large_angles :
  run_all (fun a b => Ok (angle_distance_1 a b)) =
  (true :: false :: false :: false :: nil)%list.
Proof. reflexivity. Qed.

Lemma version_2_fails_wrapping_angles :
  run_all angle_distance_2 = (true :: true :: false :: true :: nil)%list.
Proof. reflexivity. Qed.

Lemma version_3_fails_large_input_angles :
  run_all (fun a b => Ok (angle_distance_3 a b)) =
  (true :: true :: true :: false :: nil)%list.
Proof. reflexivity. Qed.

Lemma final_version_passes :
  run_all angle_distance = (true :: true :: true :: true :: nil)%list.
Proof. reflexivity. Qed.

End Narrative.

(* ------------------------------------------------------------------ *)
(** ** Properties of the final [angle_distance]

    Stated at the real instance.  The lemmas named [exact_...] are used
    further down, where they are carried to [int] and [Fraction]
    operands. *)

Section Properties.
Local Open Scope R_scope.

(** In exact arithmetic the final body returns the value the reference
    definition describes, and the reference describes no other value. *)
Lemma exact_refines_reference (a b : R) :
  exists r : R,
    angle_distance a b = Ok r /\
    Reference.angle_distance_ref a b r /\
    (forall r' : R, Reference.angle_distance_ref a b r' -> r' = r).
Proof.
  exists (wrap (Rabs (norm360 b - norm360 a))).
  split; [apply angle_distance_real |].
  split.
  - exists (norm360 a), (norm360 b).
    split; [apply norm360_normalized |].
    split; [apply norm360_normalized |].
    now rewrite Rabs_minus_sym.
  - intros r' (na & nb & Ha & Hb & ->).
    apply norm360_unique in Ha, Hb; subst na nb.
    now rewrite Rabs_minus_sym.
Qed.

(** C2. For all real [a], [b] the final [angle_distance] returns a value
    between 0 and 180, bounds included. *)
Theorem angle_distance_bounds (a b : R) :
  exists r : R, angle_distance a b = Ok r /\ 0 <= r <= 180.
Proof.
  eexists; split; [apply angle_distance_real |].
  apply wrap_bounds.
  pose proof (norm360_range a); pose proof (norm360_range b).
  unfold Rabs; destruct (Rcase_abs (norm360 b - norm360 a)); lra.
Qed.

(** C3. The final [angle_distance] is symmetric:
    [angle_distance(a, b) == angle_distance(b, a)]. *)
Theorem angle_distance_symmetric (a b : R) :
  angle_distance a b = angle_distance b a.
Proof.
  now rewrite !angle_distance_real, Rabs_minus_sym.
Qed.

(** C4. The final [angle_distance] has period 360 in its first argument:
    [angle_distance(a + 360*k, b) == angle_distance(a, b)] for every
    integer [k]. *)
Theorem angle_distance_periodic (a b : R) (k : Z) :
  angle_distance (a + 360 * IZR k) b = angle_distance a b.
Proof.
  now rewrite !angle_distance_real, norm360_shift.
Qed.

(** C5. The distance of an angle to itself is zero:
    [angle_distance(a, a) == 0]. *)
Theorem angle_distance_self (a : R) :
  angle_distance a a = Ok 0.
Proof.
  rewrite angle_distance_real; f_equal.
  unfold Rminus; rewrite Rplus_opp_r, Rabs_R0.
  apply wrap_low; lra.
Qed.

(** In exact arithmetic antipodal angles are at distance 180. *)
Lemma exact_antipodal (a : R) :
  angle_distance a (a + 180) = Ok 180.
Proof.
  rewrite angle_distance_real; f_equal.
  destruct (norm360_normalized a) as [Ha [k Hk]].
  destruct (norm360_normalized (a + 180)) as [Hb [j Hj]].
  rewrite (wrap_congruent (norm360 a) (norm360 (a + 180)) 0 180 (k - j)).
  - rewrite Rminus_0_r, Rabs_pos_eq by lra; apply wrap_low; lra.
  - exact Ha.
  - exact Hb.
  - lra.
  - lra.
  - rewrite minus_IZR; lra.
Qed.

(** C7. The four scenarios of the test suite, on Python integers as the
    suite passes them and on the same inputs read as reals:
    [angle_distance(10, 90) == 80], [angle_distance(0, 270) == 90],
    [angle_distance(1, 359) == 2], [angle_distance(720, 270) == 90]. *)
Theorem angle_distance_scenarios :
  (angle_distance 10%Z 90%Z = Ok 80%Z /\
   angle_distance 0%Z 270%Z = Ok 90%Z /\
   angle_distance 1%Z 359%Z = Ok 2%Z /\
   angle_distance 720%Z 270%Z = Ok 90%Z) /\
  (angle_distance 10 90 = Ok 80 /\
   angle_distance 0 270 = Ok 90 /\
   angle_distance 1 359 = Ok 2 /\
   angle_distance 720 270 = Ok 90).
Proof.
  split.
  - repeat split; reflexivity.
  - repeat split; rewrite angle_distance_IZR; reflexivity.
Qed.

(** In exact arithmetic a common rotation of the inputs leaves the
    distance unchanged. *)
Lemma exact_rotation (a b c : R) :
  angle_distance (a + c) (b + c) = angle_distance a b.
Proof.
  rewrite !angle_distance_real; f_equal.
  destruct (norm360_normalized a) as [Ha [ka Hka]].
  destruct (norm360_normalized b) as [Hb [kb Hkb]].
  destruct (norm360_normalized (a + c)) as [Hac [kac Hkac]].
  destruct (norm360_normalized (b + c)) as [Hbc [kbc Hkbc]].
  apply (wrap_congruent _ _ _ _ (kac - kbc + kb - ka));
    try assumption.
  rewrite minus_IZR, plus_IZR, minus_IZR; lra.
Qed.

(** C10. On inputs already in the canonical range, [0 <= a < 360] and
    [0 <= b < 360], the third version ([d = abs(b - a)], then
    [min(360 - d, d)]) returns what the final version returns. *)
Theorem angle_distance_3_agrees (a b : R) :
  0 <= a < 360 -> 0 <= b < 360 ->
  angle_distance a b = Ok (angle_distance_3 a b).
Proof.
  intros Ha Hb.
  rewrite angle_distance_real, angle_distance_3_real.
  now rewrite !norm360_canonical.
Qed.

Lemma angle_distance_3_agrees_witness :
  (0 <= 1 < 360) /\ (0 <= 359 < 360) /\
  angle_distance 1 359 = Ok (angle_distance_3 1 359).
Proof.
  split; [lra |]; split; [lra |].
  apply (angle_distance_3_agrees 1 359); lra.
Defined.

End Properties.


(* ------------------------------------------------------------------ *)
(** ** The shortest arc

    The wrapped distance of two canonical angles, seen from the plain
    difference [b - a] of the inputs: it is the distance from [b - a] to
    the nearest multiple of 360. *)

Section ArcFacts.
Local Open Scope R_scope.

Ltac split_cases :=
  unfold wrap, Rmin, Rabs;
  repeat match goal with
         | |- context [Rle_dec ?u ?v] => destruct (Rle_dec u v)
         | |- context [Rcase_abs ?u] => destruct (Rcase_abs u)
         end.

Lemma wrap_abs_attained (u : R) :
  -360 < u < 360 -> exists j : Z, wrap (Rabs u) = Rabs (u + 360 * IZR j).
Proof.
  intros Hu.
  destruct (Rle_dec (Rabs u) 180) as [Hlow | Hhigh].
  - exists 0%Z; rewrite wrap_low by exact Hlow.
    f_equal; lra.
  - destruct (Rcase_abs u) as [Hneg | Hpos].
    + exists 1%Z; revert Hhigh; split_cases; lra.
    + exists (-1)%Z; revert Hhigh; split_cases; lra.
Qed.

(** The difference of the normalized values is the plain difference, up
    to a multiple of 360, and lies strictly between -360 and 360. *)
Lemma norm360_diff (a b : R) :
  -360 < norm360 b - norm360 a < 360 /\
  exists j : Z, (norm360 b - norm360 a) - (b - a) = 360 * IZR j.
Proof.
  destruct (norm360_normalized a) as [Ha [ka Hka]].
  destruct (norm360_normalized b) as [Hb [kb Hkb]].
  split; [lra |].
  exists (ka - kb)%Z; rewrite minus_IZR; lra.
Qed.

Lemma arc_attained (a b : R) :
  exists k : Z,
    wrap (Rabs (norm360 b - norm360 a)) = Rabs (b - a + 360 * IZR k).
Proof.
  destruct (norm360_diff a b) as [Hu [j Hj]].
  destruct (wrap_abs_attained _ Hu) as [i Hi].
  exists (j + i)%Z; rewrite Hi, plus_IZR; f_equal; lra.
Qed.

End ArcFacts.

(* ------------------------------------------------------------------ *)
(** ** Exact arithmetic: when the distance vanishes *)

Section ExactZero.
Local Open Scope R_scope.

(** In exact arithmetic the distance is zero exactly when the inputs
    differ by a whole number of turns. *)
Lemma exact_zero_iff (a b : R) :
  angle_distance a b = Ok 0 <-> exists k : Z, b = a + 360 * IZR k.
Proof.
  rewrite angle_distance_real; split.
  - intros Heq; injection Heq as Heq.
    destruct (arc_attained a b) as [k Hk].
    rewrite Heq in Hk; symmetry in Hk.
    exists (- k)%Z; rewrite opp_IZR.
    revert Hk; unfold Rabs;
      destruct (Rcase_abs (b - a + 360 * IZR k)); lra.
  - intros [k ->]; f_equal.
    rewrite norm360_shift.
    unfold Rminus; rewrite Rplus_opp_r, Rabs_R0.
    apply wrap_low; lra.
Qed.

End ExactZero.

(* ------------------------------------------------------------------ *)
(** ** The second version on opposite inputs *)

Section EarlierVersions.
Local Open Scope R_scope.





End EarlierVersions.

(* ------------------------------------------------------------------ *)
(** ** Python integers and the suite *)

Section IntegersAndSuite.
Import TestAngle Suites.
Local Open Scope Z_scope.

Lemma multiple_mod_360 (x k : Z) : x = 360 * k -> x mod 360 = 0.
Proof. intros ->; rewrite Z.mul_comm; apply Z.mod_mul; discriminate. Qed.

(** X13. On Python integers the final [angle_distance] never raises and
    returns an integer between 0 and 180 that is congruent to [b - a] or
    to [a - b] modulo 360. *)
Theorem angle_distance_int_congruent (a b : Z) :
  exists r : Z,
    angle_distance a b = Ok r /\
    0 <= r <= 180 /\
    ((b - a - r) mod 360 = 0 \/ (a - b - r) mod 360 = 0).
Proof.
  unfold angle_distance; py_ops; rewrite !Zfloormod_360; py_ops.
  eexists; split; [reflexivity |].
  unfold py_min; py_ops.
  pose proof (Z.mod_pos_bound a 360 eq_refl) as Ha.
  pose proof (Z.mod_pos_bound b 360 eq_refl) as Hb.
  pose proof (Z.div_mod a 360 ltac:(discriminate)) as Hqa.
  pose proof (Z.div_mod b 360 ltac:(discriminate)) as Hqb.
  destruct (Z.ltb_spec (Z.abs (b mod 360 - a mod 360))
                       (360 - Z.abs (b mod 360 - a mod 360))) as [Hlt | Hge];
    (split; [lia |]);
    destruct (Z.le_gt_cases (a mod 360) (b mod 360)) as [Hle | Hgt];
    first [ left; apply (multiple_mod_360 _ (b / 360 - a / 360)); lia
          | right; apply (multiple_mod_360 _ (a / 360 - b / 360)); lia
          | right; apply (multiple_mod_360 _ (a / 360 - b / 360 - 1)); lia
          | left; apply (multiple_mod_360 _ (b / 360 - a / 360 - 1)); lia ].
Qed.

(** X14. The notebook's progression: each version of [angle_distance]
    passes the [TestAngle] class in force when it was written and fails
    the class extended by the next test; the final version passes the
    complete class. *)
Theorem suite_progression :
  (passes (TestAngle_1 (fun a b => Ok (angle_distance_1 a b))) = true /\
   passes (TestAngle_2 (fun a b => Ok (angle_distance_1 a b))) = false) /\
  (passes (TestAngle_2 angle_distance_2) = true /\
   passes (TestAngle_3 angle_distance_2) = false) /\
  (passes (TestAngle_3 (fun a b => Ok (angle_distance_3 a b))) = true /\
   passes (TestAngle_4 (fun a b => Ok (angle_distance_3 a b))) = false) /\
  passes (TestAngle_4 angle_distance) = true.
Proof. repeat split; reflexivity. Qed.

End IntegersAndSuite.

(* ------------------------------------------------------------------ *)
(** ** The four versions on Python integers *)

Section Integers.
Local Open Scope Z_scope.

Lemma Ok_inj {A : Type} (x y : A) : Ok x = Ok y -> x = y.
Proof. intros Heq; inversion Heq; reflexivity. Qed.

(** Quotients and remainders by constants become linear constraints. *)
Ltac int_arith := Z.to_euclidean_division_equations; lia.

(** The final version on integers, in closed form. *)
Lemma angle_distance_int_eq (a b : Z) :
  angle_distance a b =
  Ok (Z.min (360 - Z.abs (b mod 360 - a mod 360))
            (Z.abs (b mod 360 - a mod 360))).
Proof.
  unfold angle_distance; py_ops; rewrite !Zfloormod_360; py_ops.
  f_equal; unfold py_min; py_ops.
  destruct (Z.ltb_spec (Z.abs (b mod 360 - a mod 360))
                       (360 - Z.abs (b mod 360 - a mod 360))); lia.
Qed.

Lemma angle_distance_3_int_eq (a b : Z) :
  angle_distance_3 a b = Z.min (360 - Z.abs (b - a)) (Z.abs (b - a)).
Proof.
  unfold angle_distance_3, py_min; py_ops.
  destruct (Z.ltb_spec (Z.abs (b - a)) (360 - Z.abs (b - a))); lia.
Qed.

Lemma angle_distance_2_int_eq (a b : Z) :
  angle_distance_2 a b = Ok (Z.abs (b - a) mod 180).
Proof. reflexivity. Qed.

(** X1. On Python ints the final [angle_distance] returns the shortest
    arc: its result is [abs(b - a + 360*k)] for some integer [k], and no
    integer [k] gives a smaller [abs(b - a + 360*k)]. *)
Theorem angle_distance_int_shortest_arc (a b : Z) :
  exists r : Z,
    angle_distance a b = Ok r /\
    (exists k : Z, r = Z.abs (b - a + 360 * k)) /\
    (forall k : Z, r <= Z.abs (b - a + 360 * k)).
Proof.
  eexists; split; [apply angle_distance_int_eq |]; split.
  - destruct (Z.le_gt_cases (Z.abs (b mod 360 - a mod 360)) 180).
    + exists (a / 360 - b / 360); int_arith.
    + destruct (Z.le_gt_cases (a mod 360) (b mod 360)).
      * exists (a / 360 - b / 360 - 1); int_arith.
      * exists (a / 360 - b / 360 + 1); int_arith.
  - intros k; int_arith.
Qed.

(** X2. Triangle inequality on Python ints: the final [angle_distance]
    from [a] to [c] is at most the sum of the distances from [a] to [b]
    and from [b] to [c]. *)
Theorem angle_distance_int_triangle (a b c : Z) :
  exists rab rbc rac : Z,
    angle_distance a b = Ok rab /\
    angle_distance b c = Ok rbc /\
    angle_distance a c = Ok rac /\
    rac <= rab + rbc.
Proof.
  do 3 eexists; repeat (split; [apply angle_distance_int_eq |]).
  int_arith.
Qed.

(** X3. On Python ints the final [angle_distance] is zero exactly when
    the two inputs differ by a multiple of 360. *)
Theorem angle_distance_int_zero_iff (a b : Z) :
  angle_distance a b = Ok 0 <-> exists k : Z, b = a + 360 * k.
Proof.
  rewrite angle_distance_int_eq; split.
  - intros Heq; apply Ok_inj in Heq.
    exists (b / 360 - a / 360); int_arith.
  - intros [k ->]; f_equal; int_arith.
Qed.

(** X4. On Python ints the final [angle_distance] is 180 exactly when
    [b] is [a + 180] up to a multiple of 360. *)
Theorem angle_distance_int_half_turn_iff (a b : Z) :
  angle_distance a b = Ok 180 <-> exists k : Z, b = a + 180 + 360 * k.
Proof.
  rewrite angle_distance_int_eq; split.
  - intros Heq; apply Ok_inj in Heq.
    destruct (Z.le_gt_cases (a mod 360) (b mod 360)).
    + exists (b / 360 - a / 360); int_arith.
    + exists (b / 360 - a / 360 - 1); int_arith.
  - intros [k ->]; f_equal; int_arith.
Qed.

(** X5. Mirror symmetry on Python ints: negating both inputs leaves the
    final [angle_distance] unchanged. *)
Theorem angle_distance_int_mirror (a b : Z) :
  angle_distance (- a) (- b) = angle_distance a b.
Proof. rewrite !angle_distance_int_eq; f_equal; int_arith. Qed.

(** X6. On Python ints an arc of at most half a turn is measured
    exactly: for [0 <= t <= 180], the final [angle_distance] between [a]
    and [a + t] is [t], in either order of the arguments. *)
Theorem angle_distance_int_arc (a t : Z) :
  0 <= t <= 180 ->
  angle_distance a (a + t) = Ok t /\ angle_distance (a + t) a = Ok t.
Proof.
  intros Ht; rewrite !angle_distance_int_eq; split; f_equal; int_arith.
Qed.

Lemma angle_distance_int_arc_witness :
  (0 <= 45 <= 180) /\
  angle_distance 350 (350 + 45) = Ok 45 /\
  angle_distance (350 + 45) 350 = Ok 45.
Proof.
  split; [lia | apply (angle_distance_int_arc 350 45); lia].
Defined.

(** X7. On Python ints the first version, [abs(b - a)], never
    underestimates: the final [angle_distance] is at most the first
    version's result, and the two are equal exactly when the inputs
    differ by at most 180. *)
Theorem angle_distance_1_int_overestimates (a b : Z) :
  exists r : Z,
    angle_distance a b = Ok r /\
    r <= angle_distance_1 a b /\
    (r = angle_distance_1 a b <-> Z.abs (b - a) <= 180).
Proof.
  eexists; split; [apply angle_distance_int_eq |].
  unfold angle_distance_1; py_ops; int_arith.
Qed.

(** X8. On Python ints the second version, [abs(b - a) % 180], never
    raises and returns a value in [0, 180): it cannot return 180. *)
Theorem angle_distance_2_int_range (a b : Z) :
  exists r : Z, angle_distance_2 a b = Ok r /\ 0 <= r < 180.
Proof.
  eexists; split; [apply angle_distance_2_int_eq |].
  apply Z.mod_pos_bound; reflexivity.
Qed.

(** X10. On Python ints the second version agrees with the final one
    exactly when [abs(b - a) % 360] is below 180 or equal to 270. *)
Theorem angle_distance_2_int_agrees_iff (a b : Z) :
  angle_distance_2 a b = angle_distance a b <->
  Z.abs (b - a) mod 360 < 180 \/ Z.abs (b - a) mod 360 = 270.
Proof.
  rewrite angle_distance_int_eq, angle_distance_2_int_eq; split.
  - intros Heq; apply Ok_inj in Heq; int_arith.
  - intros Hm; f_equal; int_arith.
Qed.

(** X11. On Python ints the third version, [min(360 - d, d)] with
    [d = abs(b - a)], never exceeds 180, and is non-negative exactly when
    the inputs differ by at most 360. *)
Theorem angle_distance_3_int_range (a b : Z) :
  angle_distance_3 a b <= 180 /\
  (0 <= angle_distance_3 a b <-> Z.abs (b - a) <= 360).
Proof. rewrite angle_distance_3_int_eq; lia. Qed.

(** X12. On Python ints the third version agrees with the final one
    exactly when the inputs differ by at most 360, wherever they lie. *)
Theorem angle_distance_3_int_agrees_iff (a b : Z) :
  angle_distance a b = Ok (angle_distance_3 a b) <-> Z.abs (b - a) <= 360.
Proof.
  rewrite angle_distance_int_eq, angle_distance_3_int_eq; split.
  - intros Heq; apply Ok_inj in Heq; int_arith.
  - intros Hd; f_equal; int_arith.
Qed.

End Integers.

(* ------------------------------------------------------------------ *)
(** ** Exact operands: [int] and [Fraction] *)

Section ExactOperands.

(** Both exact instances return a value, and it is the one the real
    instance denotes. *)
Lemma int_denotes (a b : Z) :
  exists r : Z,
    angle_distance a b = Ok r /\
    angle_distance (IZR a) (IZR b) = Ok (IZR r).
Proof.
  rewrite angle_distance_IZR, angle_distance_int_eq.
  eexists; split; reflexivity.
Qed.

Lemma fraction_denotes (a b : Q) :
  exists r : Q,
    angle_distance a b = Ok r /\
    angle_distance (Q2R a) (Q2R b) = Ok (Q2R r).
Proof.
  rewrite angle_distance_Q2R.
  unfold angle_distance; py_ops; rewrite !Qfloormod_360; py_ops.
  eexists; split; reflexivity.
Qed.

Lemma Q2R_180 : Q2R 180 = 180%R.
Proof. apply (Q2R_inject_Z 180). Qed.

(** [a % 360] on fractions: in [0, 360) and congruent to [a]. *)
Lemma fraction_mod_360 (a : Q) :
  exists na : Q,
    py_mod a (lit 360) = Ok na /\
    (0 <= na)%Q /\ (na < 360)%Q /\
    exists k : Z, (a == na + 360 * inject_Z k)%Q.
Proof.
  py_ops; rewrite Qfloormod_360.
  eexists; split; [reflexivity |].
  pose proof (norm360_range (Q2R a)) as [Hlo Hhi].
  rewrite norm360_Q2R in Hlo, Hhi.
  repeat split.
  - apply Rle_Qle; replace (Q2R 0) with 0%R by (symmetry; apply (Q2R_inject_Z 0)).
    exact Hlo.
  - apply Rlt_Qlt; replace (Q2R 360) with 360%R
      by (symmetry; apply (Q2R_inject_Z 360)).
    exact Hhi.
  - exists (Qfloor (a / inject_Z 360)).
    change 360%Q with (inject_Z 360); ring.
Qed.

(** C1. On [int] operands and on [Fraction] operands the final
    [angle_distance] returns a value, that value is the one the reference
    definition describes at the inputs (each input reduced modulo 360
    into [0, 360), [d] the absolute difference of the two, result
    [min(360 - d, d)]), and the reference describes no other value. *)
Theorem angle_distance_exact_refines_reference :
  (forall a b : Z,
      exists r : Z,
        angle_distance a b = Ok r /\
        Reference.angle_distance_ref (IZR a) (IZR b) (IZR r) /\
        (forall r' : R,
            Reference.angle_distance_ref (IZR a) (IZR b) r' -> r' = IZR r)) /\
  (forall a b : Q,
      exists r : Q,
        angle_distance a b = Ok r /\
        Reference.angle_distance_ref (Q2R a) (Q2R b) (Q2R r) /\
        (forall r' : R,
            Reference.angle_distance_ref (Q2R a) (Q2R b) r' -> r' = Q2R r)).
Proof.
  split; intros a b.
  - destruct (int_denotes a b) as (r & Hr & HR).
    destruct (exact_refines_reference (IZR a) (IZR b)) as (x & Hx & Href & Huniq).
    rewrite HR in Hx; apply Ok_inj in Hx; subst x.
    exists r; auto.
  - destruct (fraction_denotes a b) as (r & Hr & HR).
    destruct (exact_refines_reference (Q2R a) (Q2R b)) as (x & Hx & Href & Huniq).
    rewrite HR in Hx; apply Ok_inj in Hx; subst x.
    exists r; auto.
Qed.

(** C6. On [int] operands and on [Fraction] operands antipodal inputs
    are at the maximal distance: [angle_distance(a, a + 180) == 180]. *)
Theorem angle_distance_exact_antipodal :
  (forall a : Z, angle_distance a (a + 180)%Z = Ok 180%Z) /\
  (forall a : Q,
      exists r : Q, angle_distance a (a + 180)%Q = Ok r /\ (r == 180)%Q).
Proof.
  split; intros a.
  - rewrite angle_distance_int_eq; f_equal.
    Z.to_euclidean_division_equations; lia.
  - destruct (fraction_denotes a (a + 180)%Q) as (r & Hr & HR).
    exists r; split; [exact Hr |].
    rewrite Q2R_plus, Q2R_180, exact_antipodal in HR.
    apply Ok_inj in HR.
    apply eqR_Qeq; rewrite Q2R_180; now symmetry.
Qed.

(** C9. On [int] operands and on [Fraction] operands a common rotation
    of both inputs leaves the distance unchanged:
    [angle_distance(a + c, b + c) == angle_distance(a, b)]. *)
Theorem angle_distance_exact_rotation :
  (forall a b c : Z,
      angle_distance (a + c)%Z (b + c)%Z = angle_distance a b) /\
  (forall a b c : Q,
      exists r r' : Q,
        angle_distance (a + c)%Q (b + c)%Q = Ok r /\
        angle_distance a b = Ok r' /\
        (r == r')%Q).
Proof.
  split; intros a b c.
  - rewrite !angle_distance_int_eq; f_equal.
    Z.to_euclidean_division_equations; lia.
  - destruct (fraction_denotes (a + c)%Q (b + c)%Q) as (r & Hr & HR).
    destruct (fraction_denotes a b) as (r' & Hr' & HR').
    exists r, r'; repeat split; [exact Hr | exact Hr' |].
    rewrite !Q2R_plus, exact_rotation, HR' in HR.
    apply Ok_inj in HR.
    apply eqR_Qeq; now symmetry.
Qed.

End ExactOperands.

(* ------------------------------------------------------------------ *)
(** ** Python floats: where rounding shows *)

Section Binary64.
Local Open Scope float_scope.

Lemma float_of_int_360 : float_of_int 360 = 360.
Proof. reflexivity. Qed.

(** [x % 360] raises nothing, whatever the float [x] (the result is
    [nan] for a non-finite [x]). *)
Lemma float_rem_360_total (x : float) :
  exists m : float, float_rem x 360 = Ok m.
Proof.
  unfold float_rem.
  change (360 =? 0) with false; cbv iota.
  destruct (negb (fmod x 360 =? 0));
    [destruct (xorb (360 <? 0) (fmod x 360 <? 0)) |];
    eexists; reflexivity.
Qed.

Lemma angle_distance_float_total (a b : float) :
  exists r : float, angle_distance a b = Ok r.
Proof.
  unfold angle_distance; py_ops; rewrite float_of_int_360.
  destruct (float_rem_360_total b) as [bm ->].
  destruct (float_rem_360_total a) as [am ->].
  py_ops; eexists; reflexivity.
Qed.

(** A negative float too small to survive the fix-up [mod += 360]:
    the remainder is 360.0 itself, outside [0, 360). *)
Lemma float_mod_360_reaches_360 :
  py_mod (-0x1p-70) (lit 360) = Ok 360 /\
  (360 <? lit 360) = false.
Proof. split; reflexivity. Qed.

(** The inputs [-2^-70] and [0.0] are [2^-70] apart, the code returns
    [0.0], and the reference definition does not describe 0 there. *)
Lemma float_result_not_reference :
  float_exact (-0x1p-70) = Some (-1 # 1180591620717411303424)%Q /\
  float_exact 0 = Some 0%Q /\
  angle_distance (-0x1p-70) 0 = Ok 0 /\
  ~ Reference.angle_distance_ref
      (Q2R (-1 # 1180591620717411303424)) (Q2R 0) (Q2R 0).
Proof.
  repeat split; try reflexivity.
  intros Href.
  destruct (exact_refines_reference
              (Q2R (-1 # 1180591620717411303424)) (Q2R 0))
    as (r & Hr & _ & Huniq).
  apply Huniq in Href; subst r.
  replace (Q2R 0) with 0%R in Hr by (unfold Q2R; simpl; lra).
  apply exact_zero_iff in Hr; destruct Hr as [k Hk].
  unfold Q2R in Hk; simpl in Hk.
  assert (IZR 0 < IZR k)%R as Hpos by lra.
  assert (IZR k < IZR 1)%R as Hone by lra.
  apply lt_IZR in Hpos, Hone; lia.
Qed.

(** [b] is exactly [a + 180], yet the code returns the float just below
    180. *)
Lemma float_antipodal_below_180 :
  float_exact (-0x1p-45) = Some (-1 # 35184372088832)%Q /\
  float_exact (-0x1p-45 + 180) = Some ((-1 # 35184372088832) + 180)%Q /\
  angle_distance (-0x1p-45) (-0x1p-45 + 180) = Ok 0x1.67fffffffffffp+7 /\
  (0x1.67fffffffffffp+7 =? 180) = false.
Proof. repeat split; reflexivity. Qed.

(** Rotating 0 and 180 by [-2^-45] is exact on both inputs, and changes
    the result. *)
Lemma float_rotation_changes_result :
  float_exact (0 + -0x1p-45) = Some (0 + (-1 # 35184372088832))%Q /\
  float_exact (180 + -0x1p-45) = Some (180 + (-1 # 35184372088832))%Q /\
  angle_distance 0 180 = Ok 180 /\
  angle_distance (0 + -0x1p-45) (180 + -0x1p-45) = Ok 0x1.67fffffffffffp+7 /\
  (0x1.67fffffffffffp+7 =? 180) = false.
Proof. repeat split; reflexivity. Qed.

End Binary64.

(* ------------------------------------------------------------------ *)
(** ** No error conditions *)

Section Totality.

(** C8. The final [angle_distance] raises nothing: on [int], [Fraction]
    and [float] operands, negative or beyond 360, it returns a value.  On
    [int] and [Fraction] operands its normalization step [a % 360]
    returns the representative of [a] modulo 360 that lies in [0, 360),
    for negative [a] as well (floored, not truncated). *)
Theorem angle_distance_no_error :
  (forall a b : Z,
      (exists r : Z, angle_distance a b = Ok r) /\
      (exists na : Z,
          py_mod a (lit 360) = Ok na /\
          (0 <= na < 360)%Z /\
          exists k : Z, a = (na + 360 * k)%Z)) /\
  (forall a b : Q,
      (exists r : Q, angle_distance a b = Ok r) /\
      (exists na : Q,
          py_mod a (lit 360) = Ok na /\
          (0 <= na)%Q /\ (na < 360)%Q /\
          exists k : Z, (a == na + 360 * inject_Z k)%Q)) /\
  (forall a b : float, exists r : float, angle_distance a b = Ok r).
Proof.
  split; [| split]; intros a b.
  - split.
    + eexists; apply angle_distance_int_eq.
    + exists (a mod 360)%Z; split; [reflexivity |].
      split; [apply Z.mod_pos_bound; reflexivity |].
      exists (a / 360)%Z.
      rewrite Z.add_comm; apply Z.div_mod; discriminate.
  - split.
    + destruct (fraction_denotes a b) as (r & Hr & _); now exists r.
    + apply fraction_mod_360.
  - apply angle_distance_float_total.
Qed.

End Totality.
